(** * catalog/models.py: the library-catalog data model

    A shallow embedding of the five Django models of [catalog/models.py]
    (Genre, Language, Book, BookInstance, Author) and of their derived
    properties: [__str__], [get_absolute_url], [display_genre] and
    [is_overdue].

    Records describe stored rows: the primary key is assigned and the
    related objects are the ones the relation managers return.  The parts
    of the Python runtime and of the framework the methods call
    ([str.format], [str.join], [str], [date] comparison, field validation,
    default ordering) are given as executable definitions in the modules
    [Py] and [ORM]; the URL configuration, which lives outside this file of
    the repository, is an interface ([URLResolver]).  The declarations of
    the required text columns and of [on_delete=SET_NULL] are in [Fields]
    and [OnDelete]. *)

From Stdlib Require Import ZArith NArith List String Ascii Bool Lia.
From Stdlib Require Import Numbers.DecimalString Numbers.HexadecimalString.
From Stdlib Require Numbers.HexadecimalN Numbers.DecimalZ Numbers.DecimalPos.
From Stdlib Require Import Sorting.Sorted Sorting.Permutation.
From Stdlib Require Import Relations.Relation_Definitions Classes.RelationClasses.
Import ListNotations.

Open Scope string_scope.

(** ** The Python runtime the models use *)

Module Py.

(** Exceptions that the modelled code or its callees raise. *)
Inductive exn : Type :=
| AttributeError (msg : string)
| IndexError (msg : string)
| ValueError (msg : string)
| TypeError (msg : string)
| FieldError (msg : string)
| ValidationError (code : string)
| NoReverseMatch (msg : string)
| Unmodelled (what : string).

(** A call either returns a value or raises. *)
Inductive result (A : Type) : Type :=
| Ok (a : A)
| Raise (e : exn).
Arguments Ok {A} a.
Arguments Raise {A} e.

Definition bind {A B : Type} (r : result A) (k : A -> result B) : result B :=
  match r with
  | Ok a => k a
  | Raise e => Raise e
  end.

Definition fmap {A B : Type} (f : A -> B) (r : result A) : result B :=
  bind r (fun a => Ok (f a)).

Definition returns {A : Type} (r : result A) : Prop :=
  exists a, r = Ok a.

(** [str(n)] for an [int]. *)
Definition str_int (n : Z) : string :=
  DecimalString.NilZero.string_of_int (Z.to_int n).

(** A [str] is held as the bytes of its UTF-8 encoding.  A character
    starts at every byte that is not a continuation byte (10xxxxxx). *)
Definition is_continuation (c : ascii) : bool :=
  let n := nat_of_ascii c in
  (128 <=? n)%nat && (n <? 192)%nat.

(** [len(s)]: the number of characters of [s]. *)
Fixpoint len (s : string) : nat :=
  match s with
  | EmptyString => O
  | String c rest =>
      if is_continuation c then len rest else S (len rest)
  end.

(** [sep.join(xs)]. *)
Fixpoint join (sep : string) (xs : list string) : string :=
  match xs with
  | [] => ""
  | x :: rest =>
      match rest with
      | [] => x
      | _ :: _ => x ++ sep ++ join sep rest
      end
  end.

(** [xs[:n]] on a sequence. *)
Definition slice_to {A : Type} (n : nat) (xs : list A) : list A :=
  firstn n xs.

(** *** [str.format] with positional fields

    The scanner reads the template left to right.  [{{] and [}}] are
    escaped braces, [{i}] is replaced by the [i]-th argument already
    rendered with [str].  Automatic numbering, named fields, conversions
    and format specifications are outside the modelled fragment. *)

Inductive fmt_state : Type :=
| Text
| OpenSeen
| Field (index : nat)
| CloseSeen.

Definition digit_of (c : ascii) : option nat :=
  let n := nat_of_ascii c in
  if (48 <=? n)%nat && (n <=? 57)%nat then Some (n - 48)%nat else None.

Definition single_open : exn :=
  ValueError "Single '{' encountered in format string".
Definition single_close : exn :=
  ValueError "Single '}' encountered in format string".
Definition missing_close : exn :=
  ValueError "expected '}' before end of string".
Definition out_of_range : exn :=
  IndexError "Replacement index out of range for positional args tuple".

Fixpoint format_from (st : fmt_state) (template : string)
         (args : list string) : result string :=
  match template with
  | EmptyString =>
      match st with
      | Text => Ok ""
      | OpenSeen => Raise single_open
      | Field _ => Raise missing_close
      | CloseSeen => Raise single_close
      end
  | String c rest =>
      match st with
      | Text =>
          if Ascii.eqb c "{" then format_from OpenSeen rest args
          else if Ascii.eqb c "}" then format_from CloseSeen rest args
          else fmap (String c) (format_from Text rest args)
      | OpenSeen =>
          if Ascii.eqb c "{" then fmap (String c) (format_from Text rest args)
          else match digit_of c with
               | Some d => format_from (Field d) rest args
               | None => Raise (Unmodelled "replacement field")
               end
      | Field i =>
          if Ascii.eqb c "}" then
            match nth_error args i with
            | Some a => fmap (append a) (format_from Text rest args)
            | None => Raise out_of_range
            end
          else match digit_of c with
               | Some d => format_from (Field (10 * i + d)) rest args
               | None => Raise (Unmodelled "replacement field")
               end
      | CloseSeen =>
          if Ascii.eqb c "}" then fmap (String c) (format_from Text rest args)
          else Raise single_close
      end
  end.

Definition format (template : string) (args : list string) : result string :=
  format_from Text template args.

(** *** [datetime.date] *)

Record date : Type := mkdate { year : Z; month : Z; day : Z }.

(** Dates compare as the triples [(year, month, day)]. *)
Definition date_cmp (a b : date) : comparison :=
  match Z.compare (year a) (year b) with
  | Eq =>
      match Z.compare (month a) (month b) with
      | Eq => Z.compare (day a) (day b)
      | c => c
      end
  | c => c
  end.

Definition date_gt (a b : date) : bool :=
  match date_cmp a b with
  | Gt => true
  | _ => false
  end.

(** [a > b] where [a] is a [date] and [b] holds [None] or a [date]:
    comparing a [date] with [None] raises. *)
Definition gt (a : date) (b : option date) : result bool :=
  match b with
  | Some d => Ok (date_gt a d)
  | None =>
      Raise (TypeError
        "'>' not supported between instances of 'datetime.date' and 'NoneType'")
  end.

(** [x and y]: [y] is evaluated only when [x] is true. *)
Definition and_then (x : bool) (y : result bool) : result bool :=
  if x then y else Ok false.

(** Truth value of an attribute that holds [None] or a [date]: a [date]
    defines neither [__bool__] nor [__len__], so only [None] is false. *)
Definition truthy {A : Type} (x : option A) : bool :=
  match x with
  | Some _ => true
  | None => false
  end.

(** *** [uuid.UUID] *)

Record UUID : Type := mkUUID { int : N }.

(** ['%x' % n]. *)
Definition hex (n : N) : string :=
  HexadecimalString.NilZero.string_of_uint (N.to_hex_uint n).

Fixpoint zeros (n : nat) : string :=
  match n with
  | O => ""
  | S k => String "0" (zeros k)
  end.

(** ['%032x' % n]. *)
Definition hex32 (n : N) : string :=
  let h := hex n in
  zeros (32 - String.length h) ++ h.

(** [str(u)]: the five groups 8-4-4-4-12 of the zero-padded digits. *)
Definition str_uuid (u : UUID) : string :=
  let h := hex32 (int u) in
  substring 0 8 h ++ "-" ++ substring 8 4 h ++ "-" ++ substring 12 4 h
    ++ "-" ++ substring 16 4 h ++ "-"
    ++ substring 20 (String.length h - 20) h.

End Py.

Import Py.

(** ** The framework: URL resolution, field validation, default ordering *)

Module ORM.

(** [django.urls.reverse(viewname, args)] against the project's URL
    configuration. *)
Class URLResolver : Type :=
  { reverse : string -> list string -> result string }.

(** Options of a [models.CharField] declaration. *)
Record CharField : Type :=
  { max_length : nat;
    choices : option (list (string * string));
    blank : bool;
    default : option string;
    help_text : string }.

Definition is_empty (v : string) : bool := String.eqb v "".

Definition is_choice (v : string) (cs : list (string * string)) : bool :=
  existsb (fun c => String.eqb v (fst c)) cs.

(** [Field.validate]: the choices, then the blank check. *)
Definition validate (f : CharField) (v : string) : result unit :=
  match choices f with
  | Some cs =>
      if negb (is_empty v) then
        if is_choice v cs then Ok tt
        else Raise (ValidationError "invalid_choice")
      else if negb (blank f) then Raise (ValidationError "blank")
      else Ok tt
  | None =>
      if negb (blank f) && is_empty v then Raise (ValidationError "blank")
      else Ok tt
  end.

(** [Field.run_validators]: the [MaxLengthValidator] of a [CharField],
    which compares [max_length] with [len(value)], a count of characters;
    skipped on an empty value. *)
Definition run_validators (f : CharField) (v : string) : result unit :=
  if is_empty v then Ok tt
  else if (max_length f <? len v)%nat
       then Raise (ValidationError "max_length")
       else Ok tt.

(** [Model.clean_fields] on one field: a blank field with an empty value
    is skipped, any other value goes through [Field.clean]. *)
Definition clean (f : CharField) (v : string) : result string :=
  if blank f && is_empty v then Ok v
  else bind (validate f v) (fun _ =>
       bind (run_validators f v) (fun _ => Ok v)).

(** [Field.get_default] of a [CharField] that is not nullable. *)
Definition get_default (f : CharField) : string :=
  match default f with
  | Some d => d
  | None => ""
  end.

(** [class Meta] options. *)
Record Meta : Type :=
  { ordering : list string;
    permissions : list (string * string) }.

(** What the database backend decides when it sorts: whether NULL sorts
    below every value, and the collation of text columns. *)
Record Backend : Type :=
  { nulls_smallest : bool;
    collate : string -> string -> comparison }.

Definition row_cmp (Row : Type) : Type := Row -> Row -> comparison.

Definition null_cmp {K : Type} (be : Backend) (cmp : K -> K -> comparison)
           (x y : option K) : comparison :=
  match x, y with
  | None, None => Eq
  | None, Some _ => if nulls_smallest be then Lt else Gt
  | Some _, None => if nulls_smallest be then Gt else Lt
  | Some a, Some b => cmp a b
  end.

Definition on {Row K : Type} (cmp : K -> K -> comparison) (key : Row -> K)
  : row_cmp Row :=
  fun a b => cmp (key a) (key b).

Definition descending {Row : Type} (c : row_cmp Row) : row_cmp Row :=
  fun a b => CompOpp (c a b).

Definition then_by {Row : Type} (c1 c2 : row_cmp Row) : row_cmp Row :=
  fun a b =>
    match c1 a b with
    | Eq => c2 a b
    | r => r
    end.

Section Listing.
Context {Row : Type}.
Variable columns : string -> option (row_cmp Row).

(** One entry of an ordering: a field name, descending when prefixed
    with a hyphen. *)
Definition resolve_term (term : string) : option (row_cmp Row) :=
  match term with
  | String "-" name => option_map descending (columns name)
  | _ => columns term
  end.

Fixpoint resolve_ordering (terms : list string) : option (row_cmp Row) :=
  match terms with
  | [] => Some (fun _ _ => Eq)
  | t :: ts =>
      match resolve_term t, resolve_ordering ts with
      | Some c, Some cs => Some (then_by c cs)
      | _, _ => None
      end
  end.

Definition le_of (c : row_cmp Row) (a b : Row) : bool :=
  match c a b with
  | Gt => false
  | _ => true
  end.

(** ORDER BY as an insertion sort of the table's rows.  A backend fixes
    no order among rows whose keys compare equal; the sort yields one of
    the admissible listings, the one that keeps such rows in the order of
    the table. *)
Fixpoint insert_row (c : row_cmp Row) (x : Row) (rows : list Row)
  : list Row :=
  match rows with
  | [] => [x]
  | y :: rest =>
      if le_of c x y then x :: y :: rest
      else y :: insert_row c x rest
  end.

Fixpoint sort_rows (c : row_cmp Row) (rows : list Row) : list Row :=
  match rows with
  | [] => []
  | x :: rest => insert_row c x (sort_rows c rest)
  end.

(** Entries of an ordering that the framework accepts and this fragment
    does not resolve: paths through a relation ([book__title]) and the
    random order [?]. *)
Fixpoint has_lookup_sep (s : string) : bool :=
  match s with
  | String "_" (String "_" _) => true
  | String _ rest => has_lookup_sep rest
  | EmptyString => false
  end.

Definition outside_fragment (term : string) : bool :=
  has_lookup_sep term || String.eqb term "?" || String.eqb term "-?".

(** Evaluating a queryset over a table: [order_by] when the query gives
    one, the model's [Meta.ordering] otherwise. *)
Definition listing (meta : Meta) (order_by : option (list string))
           (table : list Row) : result (list Row) :=
  let terms :=
    match order_by with
    | Some explicit => explicit
    | None => ordering meta
    end in
  match resolve_ordering terms with
  | Some c => Ok (sort_rows c table)
  | None =>
      if existsb outside_fragment terms
      then Raise (Unmodelled "ordering")
      else Raise (FieldError "Cannot resolve keyword into field")
  end.
End Listing.

End ORM.

Import ORM.

(** ** The models of [catalog/models.py] *)

Module Genre.
Record t : Type := { id : Z; name : string }.

Definition __str__ (self : t) : string := name self.
End Genre.

Module Language.
Record t : Type := { id : Z; name : string }.

Definition __str__ (self : t) : string := name self.
End Language.

(** [Book] names ['Author'] before the class is declared; here the record
    comes first. *)
Module Author.
Record t : Type :=
  { id : Z;
    first_name : string;
    last_name : string;
    date_of_birth : option date;
    date_of_death : option date }.

Definition get_absolute_url `{URLResolver} (self : t) : result string :=
  reverse "author-detail" [str_int (id self)].

Definition __str__ (self : t) : result string :=
  format "{0}, {1}" [last_name self; first_name self].

Definition Meta : ORM.Meta :=
  {| ordering := ["last_name"];
     permissions := [("create_author", "Can create a new author")] |}.

Definition columns (be : Backend) (field : string) : option (row_cmp t) :=
  if String.eqb field "id" || String.eqb field "pk"
  then Some (on Z.compare id)
  else if String.eqb field "first_name" then Some (on (collate be) first_name)
  else if String.eqb field "last_name" then Some (on (collate be) last_name)
  else if String.eqb field "date_of_birth"
    then Some (on (null_cmp be date_cmp) date_of_birth)
  else if String.eqb field "date_of_death"
    then Some (on (null_cmp be date_cmp) date_of_death)
  else None.

(** [Author.objects.all()], or [.order_by(...)] when [order_by] is given. *)
Definition objects (be : Backend) (order_by : option (list string))
           (table : list t) : result (list t) :=
  listing (columns be) Meta order_by table.
End Author.

Module Book.
Record t : Type :=
  { id : Z;
    title : string;
    author : option Author.t;
    summary : string;
    isbn : string;
    genre : list Genre.t;       (* what [self.genre.all()] yields, in order *)
    language : option Language.t }.

Definition display_genre (self : t) : string :=
  join ", " (map Genre.name (slice_to 3 (genre self))).

Definition __str__ (self : t) : string := title self.

Definition get_absolute_url `{URLResolver} (self : t) : result string :=
  reverse "book-detail" [str_int (id self)].
End Book.

(** [django.contrib.auth.models.User], as far as a loan refers to it. *)
Module User.
Record t : Type := { id : Z; username : string }.
End User.

Module BookInstance.
Record t : Type :=
  { id : UUID;
    book : option Book.t;
    imprint : string;
    due_back : option date;
    borrower : option User.t;
    status : string }.

Definition LOAN_STATUS : list (string * string) :=
  [ ("m", "Maintenance");
    ("o", "On loan");
    ("a", "Available");
    ("r", "Reserved") ].

Definition status_field : CharField :=
  {| max_length := 1;
     choices := Some LOAN_STATUS;
     blank := true;
     default := Some "m";
     help_text := "Disponibilidad del libro" |}.

Definition Meta : ORM.Meta :=
  {| ordering := ["due_back"];
     permissions := [("can_mark_returned", "Set book as returned")] |}.

(** [BookInstance(...)]: a status that is not given takes the field's
    default. *)
Definition create (id : UUID) (book : option Book.t) (imprint : string)
           (due_back : option date) (borrower : option User.t)
           (status : option string) : t :=
  {| id := id; book := book; imprint := imprint; due_back := due_back;
     borrower := borrower;
     status := match status with
               | Some s => s
               | None => get_default status_field
               end |}.

(** [self.book.title]. *)
Definition book_title (self : t) : result string :=
  match book self with
  | Some b => Ok (Book.title b)
  | None => Raise (AttributeError "'NoneType' object has no attribute 'title'")
  end.

Definition __str__ (self : t) : result string :=
  bind (book_title self) (fun title =>
    format "{0} ({1})" [str_uuid (id self); title]).

(** The property reads the clock: [today] is what [date.today()] returns. *)
Definition is_overdue (today : date) (self : t) : result bool :=
  bind (and_then (truthy (due_back self)) (gt today (due_back self)))
    (fun c => if c then Ok true else Ok false).

(** The methods of the class as calls on an instance: the instance
    after the call and what the call returns.  No method assigns to
    [self]. *)
Inductive method : Type :=
| call_str
| call_is_overdue (today : date).

Inductive value : Type :=
| VStr (s : string)
| VBool (b : bool).

Definition call (m : method) (self : t) : t * result value :=
  match m with
  | call_str => (self, fmap VStr (__str__ self))
  | call_is_overdue today => (self, fmap VBool (is_overdue today self))
  end.

Definition columns (be : Backend) (field : string) : option (row_cmp t) :=
  if String.eqb field "id" || String.eqb field "pk"
  then Some (on N.compare (fun r => int (id r)))
  else if String.eqb field "book" || String.eqb field "book_id"
    then Some (on (null_cmp be Z.compare) (fun r => option_map Book.id (book r)))
  else if String.eqb field "imprint" then Some (on (collate be) imprint)
  else if String.eqb field "due_back"
    then Some (on (null_cmp be date_cmp) due_back)
  else if String.eqb field "borrower" || String.eqb field "borrower_id"
    then Some (on (null_cmp be Z.compare)
                  (fun r => option_map User.id (borrower r)))
  else if String.eqb field "status" then Some (on (collate be) status)
  else None.

(** [BookInstance.objects.all()], or [.order_by(...)] when [order_by] is
    given. *)
Definition objects (be : Backend) (order_by : option (list string))
           (table : list t) : result (list t) :=
  listing (columns be) Meta order_by table.
End BookInstance.

(** ** Vocabulary of the statements *)

(** The four loan-status codes. *)
Definition loan_codes : list string := ["m"; "o"; "a"; "r"].

(** [rows] is in ascending order of [key], compared with [cmp]: no row is
    followed, at any distance, by one with a smaller key. *)
Definition ascending_by {Row K : Type} (cmp : K -> K -> comparison)
           (key : Row -> K) (rows : list Row) : Prop :=
  StronglySorted (fun a b => cmp (key a) (key b) <> Gt) rows.

(** [a] is a later calendar day than [b]. *)
Definition later (a b : date) : Prop :=
  (year b < year a)%Z
  \/ (year b = year a /\ (month b < month a)%Z)
  \/ (year b = year a /\ month b = month a /\ (day b < day a)%Z).

(** What a collation must satisfy to be an order on text. *)
Definition collation_ok (be : Backend) : Prop :=
  (forall a b, collate be b a = CompOpp (collate be a b)) /\
  (forall a b c, collate be a b <> Gt -> collate be b c <> Gt ->
                 collate be a c <> Gt).

(** A URL configuration in the style of the tutorial's [catalog/urls.py],
    for evaluating [get_absolute_url] on examples. *)
Definition example_urls : URLResolver :=
  {| reverse := fun viewname args =>
       match args with
       | [pk] =>
           if String.eqb viewname "book-detail"
           then Ok ("/catalog/book/" ++ pk)
           else if String.eqb viewname "author-detail"
           then Ok ("/catalog/author/" ++ pk)
           else Raise (NoReverseMatch viewname)
       | _ => Raise (NoReverseMatch viewname)
       end |}.

(** Sample rows. *)
Definition fantasy : Genre.t := {| Genre.id := 1; Genre.name := "Fantasy" |}.
Definition satire : Genre.t := {| Genre.id := 2; Genre.name := "Satire" |}.
Definition poetry : Genre.t := {| Genre.id := 3; Genre.name := "Poetry" |}.
Definition essay : Genre.t := {| Genre.id := 4; Genre.name := "Essay" |}.
Definition spanish : Language.t :=
  {| Language.id := 1; Language.name := "Spanish" |}.

Definition borges : Author.t :=
  {| Author.id := 7; Author.first_name := "Jorge Luis";
     Author.last_name := "Borges";
     Author.date_of_birth := Some (mkdate 1899 8 24);
     Author.date_of_death := Some (mkdate 1986 6 14) |}.

Definition cortazar : Author.t :=
  {| Author.id := 9; Author.first_name := "Julio";
     Author.last_name := "Cortazar";
     Author.date_of_birth := Some (mkdate 1914 8 26);
     Author.date_of_death := None |}.

Definition ficciones : Book.t :=
  {| Book.id := 12; Book.title := "Ficciones"; Book.author := Some borges;
     Book.summary := "Cuentos"; Book.isbn := "9780802130303";
     Book.genre := [fantasy; satire; poetry; essay];
     Book.language := Some spanish |}.

Definition copy_uuid : UUID := mkUUID 0x0123456789abcdef0123456789abcdef.

Definition shelf_copy : BookInstance.t :=
  BookInstance.create copy_uuid (Some ficciones) "Emece, 1944"
    (Some (mkdate 2021 9 30)) None None.

(** A copy whose book was deleted: [on_delete=SET_NULL] left [book] null. *)
Definition orphan_copy : BookInstance.t :=
  BookInstance.create copy_uuid None "Emece, 1944" None None (Some "a").

(** A copy saved with the status left blank. *)
Definition blank_copy : BookInstance.t :=
  BookInstance.create copy_uuid (Some ficciones) "Emece, 1944" None None
    (Some "").

(** A backend that sorts NULL below every value and compares text code
    point by code point. *)
Definition binary_backend : Backend :=
  {| nulls_smallest := true; collate := String.compare |}.

Definition copy_due (n : N) (due : option date) : BookInstance.t :=
  BookInstance.create (mkUUID n) (Some ficciones) "Emece, 1944" due None
    (Some "o").

Definition loans : list BookInstance.t :=
  [ copy_due 1 (Some (mkdate 2021 10 4));
    copy_due 2 None;
    copy_due 3 (Some (mkdate 2021 9 30));
    copy_due 4 (Some (mkdate 2020 12 31)) ].

Definition writers : list Author.t := [cortazar; borges].

(** Rows that agree with the samples on what a derived property reads and
    differ elsewhere. *)
Definition fantasy_renumbered : Genre.t :=
  {| Genre.id := 41; Genre.name := "Fantasy" |}.


Definition ficciones_reissue : Book.t :=
  {| Book.id := 12; Book.title := "Ficciones"; Book.author := None;
     Book.summary := "Cuentos, segunda edicion"; Book.isbn := "9788420633121";
     Book.genre := [fantasy_renumbered; satire; poetry];
     Book.language := None |}.

Definition borges_undated : Author.t :=
  {| Author.id := 7; Author.first_name := "Jorge Luis";
     Author.last_name := "Borges";
     Author.date_of_birth := None; Author.date_of_death := None |}.

Definition reader : User.t := {| User.id := 3; User.username := "lector" |}.

Definition lent_copy : BookInstance.t :=
  BookInstance.create copy_uuid (Some ficciones_reissue) "Alianza, 1971"
    (Some (mkdate 2021 9 30)) (Some reader) (Some "o").

(** ** Further declarations of [catalog/models.py] *)

(** The required text columns, as declared: [CharField(max_length=n)]
    with the framework's defaults [blank=False], no choices, no default. *)
Module Fields.
Definition required (n : nat) (help : string) : CharField :=
  {| max_length := n; choices := None; blank := false; default := None;
     help_text := help |}.

Definition quote : string := String (ascii_of_nat 34) "".

Definition Genre_name : CharField :=
  required 200
    "Ingrese el nombre del genero (p. ej. Ciencia Ficcion, Poesia Francesa etc.)".
Definition Language_name : CharField :=
  required 200
    "Ingrese el lenguaje natural del libro (p. ej. Ingles, frances, japones, etc.).".
Definition Book_title : CharField := required 200 "".
Definition Book_isbn : CharField :=
  required 13
    ("13 Caracteres <a href=" ++ quote
       ++ "https://www.isbn-international.org/content/what-isbn" ++ quote
       ++ ">ISBN number</a>").
Definition BookInstance_imprint : CharField := required 200 "".
Definition Author_first_name : CharField := required 100 "".
Definition Author_last_name : CharField := required 100 "".
End Fields.

(** [on_delete=SET_NULL]: when the referenced row is deleted, the rows
    that refer to it stay in their table with the reference set to null. *)
Module OnDelete.
Definition refers_to_book (pk : Z) (c : BookInstance.t) : bool :=
  match BookInstance.book c with
  | Some b => Z.eqb (Book.id b) pk
  | None => false
  end.

Definition refers_to_user (pk : Z) (c : BookInstance.t) : bool :=
  match BookInstance.borrower c with
  | Some u => Z.eqb (User.id u) pk
  | None => false
  end.

Definition null_book (c : BookInstance.t) : BookInstance.t :=
  {| BookInstance.id := BookInstance.id c;
     BookInstance.book := None;
     BookInstance.imprint := BookInstance.imprint c;
     BookInstance.due_back := BookInstance.due_back c;
     BookInstance.borrower := BookInstance.borrower c;
     BookInstance.status := BookInstance.status c |}.

Definition null_borrower (c : BookInstance.t) : BookInstance.t :=
  {| BookInstance.id := BookInstance.id c;
     BookInstance.book := BookInstance.book c;
     BookInstance.imprint := BookInstance.imprint c;
     BookInstance.due_back := BookInstance.due_back c;
     BookInstance.borrower := None;
     BookInstance.status := BookInstance.status c |}.

(** The table of copies after the [Book] with primary key [pk] is
    deleted. *)
Definition book_deleted (pk : Z) (copies : list BookInstance.t)
  : list BookInstance.t :=
  map (fun c => if refers_to_book pk c then null_book c else c) copies.

(** The table of copies after the [User] with primary key [pk] is
    deleted. *)
Definition user_deleted (pk : Z) (copies : list BookInstance.t)
  : list BookInstance.t :=
  map (fun c => if refers_to_user pk c then null_borrower c else c) copies.
End OnDelete.

(** ** Reading strings back *)

(** Whether the character [c] occurs in [s]. *)
Fixpoint occurs (c : ascii) (s : string) : bool :=
  match s with
  | EmptyString => false
  | String x rest => Ascii.eqb x c || occurs c rest
  end.

(** [s] without its hyphens. *)
Fixpoint strip_hyphens (s : string) : string :=
  match s with
  | EmptyString => EmptyString
  | String x rest =>
      if Ascii.eqb x "-" then strip_hyphens rest
      else String x (strip_hyphens rest)
  end.

(** The number a string of hexadecimal digits denotes. *)
Definition unhex (s : string) : option N :=
  option_map N.of_hex_uint (HexadecimalString.NilEmpty.uint_of_string s).

(** The UUID a rendered UUID denotes: hyphens dropped, digits read in
    base 16. *)
Definition uuid_of_str (s : string) : option UUID :=
  option_map mkUUID (unhex (strip_hyphens s)).

(** The integer a rendered [int] denotes. *)
Definition int_of_str (s : string) : option Z :=
  option_map Z.of_int (DecimalString.NilZero.int_of_string s).


(** A configuration with the one route [book-detail]. *)
Definition books_only_urls : URLResolver :=
  {| reverse := fun viewname args =>
       match args with
       | [pk] =>
           if String.eqb viewname "book-detail"
           then Ok ("/catalog/book/" ++ pk)
           else Raise (NoReverseMatch viewname)
       | _ => Raise (NoReverseMatch viewname)
       end |}.

(** [rows] is a default listing of the table of copies: the rows of the
    table in ascending order of [due_back], in whatever order the backend
    leaves the rows whose keys are equal. *)
Definition default_listing_of (be : Backend)
           (table rows : list BookInstance.t) : Prop :=
  Permutation table rows
  /\ ascending_by (null_cmp be date_cmp) BookInstance.due_back rows.

(** More sample rows. *)
Definition cortazar_accented : Author.t :=
  {| Author.id := 9; Author.first_name := "Julio";
     Author.last_name := "Cortázar";
     Author.date_of_birth := Some (mkdate 1914 8 26);
     Author.date_of_death := None |}.

Definition borges_split : Author.t :=
  {| Author.id := 8; Author.first_name := "Luis";
     Author.last_name := "Borges, Jorge";
     Author.date_of_birth := None; Author.date_of_death := None |}.

(** ** Evaluation on the sample rows *)

Example shelf_copy_str :
  BookInstance.__str__ shelf_copy
  = Ok "01234567-89ab-cdef-0123-456789abcdef (Ficciones)".
Proof. vm_compute. reflexivity. Qed.

Example ficciones_url :
  @Book.get_absolute_url example_urls ficciones = Ok "/catalog/book/12".
Proof. vm_compute. reflexivity. Qed.

Example borges_str : Author.__str__ borges = Ok "Borges, Jorge Luis".
Proof. vm_compute. reflexivity. Qed.

Example ficciones_genres :
  Book.display_genre ficciones = "Fantasy, Satire, Poetry".
Proof. vm_compute. reflexivity. Qed.

Example shelf_copy_overdue :
  BookInstance.is_overdue (mkdate 2021 10 1) shelf_copy = Ok true
  /\ BookInstance.is_overdue (mkdate 2021 9 30) shelf_copy = Ok false
  /\ BookInstance.is_overdue (mkdate 2020 12 31) shelf_copy = Ok false.
Proof. vm_compute. repeat split. Qed.

(** ** Dates *)

Lemma date_cmp_refl (d : date) : date_cmp d d = Eq.
Proof.
  unfold date_cmp. now rewrite !Z.compare_refl.
Qed.

Lemma date_gt_irrefl (d : date) : date_gt d d = false.
Proof.
  unfold date_gt. now rewrite date_cmp_refl.
Qed.

Lemma date_cmp_antisym (a b : date) : date_cmp b a = CompOpp (date_cmp a b).
Proof.
  unfold date_cmp.
  rewrite (Z.compare_antisym (year a) (year b)),
          (Z.compare_antisym (month a) (month b)),
          (Z.compare_antisym (day a) (day b)).
  destruct (year a ?= year b)%Z, (month a ?= month b)%Z,
           (day a ?= day b)%Z; reflexivity.
Qed.

Lemma date_gt_later (a b : date) : date_gt a b = true <-> later a b.
Proof.
  unfold date_gt, date_cmp, later.
  destruct (Z.compare_spec (year a) (year b));
    destruct (Z.compare_spec (month a) (month b));
    destruct (Z.compare_spec (day a) (day b));
    split; intros; try discriminate; try reflexivity; lia.
Qed.

(** ** BookInstance.is_overdue *)

(** C1. [is_overdue] returns [True] exactly when [due_back] is set and the
    current date is strictly later; it returns [False] when [due_back] is
    null and when [due_back] is the current date. It never raises. *)
Theorem is_overdue_iff (today : date) (self : BookInstance.t) :
  (BookInstance.is_overdue today self = Ok true
   \/ BookInstance.is_overdue today self = Ok false)
  /\ (BookInstance.is_overdue today self = Ok true
      <-> exists d, BookInstance.due_back self = Some d /\ later today d)
  /\ (forall i b im bo st,
        BookInstance.is_overdue today (BookInstance.create i b im None bo st)
        = Ok false)
  /\ (forall i b im bo st,
        BookInstance.is_overdue today
          (BookInstance.create i b im (Some today) bo st)
        = Ok false).
Proof.
  unfold BookInstance.is_overdue.
  repeat split.
  - destruct (BookInstance.due_back self) as [d|]; cbn;
      [destruct (date_gt today d)|]; auto.
  - destruct (BookInstance.due_back self) as [d|]; cbn.
    + destruct (date_gt today d) eqn:E; [| discriminate].
      intros _. exists d. split; [reflexivity | now apply date_gt_later].
    + discriminate.
  - intros (d & Hd & Hgt). apply date_gt_later in Hgt.
    rewrite Hd. cbn. now rewrite Hgt.
  - intros. cbn. now rewrite date_gt_irrefl.
Qed.

(** ** String representations *)

Lemma append_empty (s : string) : s ++ "" = s.
Proof.
  induction s as [|c s IH]; cbn; [reflexivity | now rewrite IH].
Qed.

Lemma format_pair_parens (a b : string) :
  format "{0} ({1})" [a; b] = Ok (a ++ " (" ++ b ++ ")").
Proof. reflexivity. Qed.

Lemma format_pair_comma (a b : string) :
  format "{0}, {1}" [a; b] = Ok (a ++ ", " ++ b).
Proof.
  transitivity (Ok (a ++ ", " ++ (b ++ ""))).
  - reflexivity.
  - now rewrite append_empty.
Qed.

Lemma book_title_set (self : BookInstance.t) (b : Book.t) :
  BookInstance.book self = Some b ->
  BookInstance.book_title self = Ok (Book.title b).
Proof.
  unfold BookInstance.book_title. now intros ->.
Qed.

Lemma str_after_title (self : BookInstance.t) (title : string) :
  BookInstance.book_title self = Ok title ->
  BookInstance.__str__ self
  = Ok (str_uuid (BookInstance.id self) ++ " (" ++ title ++ ")").
Proof.
  unfold BookInstance.__str__. intros ->. cbn [bind].
  apply format_pair_parens.
Qed.

(** C2, as stated, fails on a copy whose book is null: [__str__] raises
    and returns no string at all. *)
Lemma str_of_orphan_copy_raises :
  BookInstance.__str__ orphan_copy
  = Raise (AttributeError "'NoneType' object has no attribute 'title'")
  /\ ~ returns (BookInstance.__str__ orphan_copy).
Proof.
  split.
  - reflexivity.
  - intros [s Hs]. discriminate Hs.
Qed.

(** C2, amended. For a copy whose book is set, [__str__] returns the id,
    a space and the book's title in parentheses. *)
Theorem bookinstance_str_format (self : BookInstance.t) (b : Book.t)
        (Hbook : BookInstance.book self = Some b) :
  BookInstance.__str__ self
  = Ok (str_uuid (BookInstance.id self) ++ " (" ++ Book.title b ++ ")").
Proof.
  apply str_after_title. now apply book_title_set.
Qed.

Lemma bookinstance_str_format_witness :
  BookInstance.book shelf_copy = Some ficciones
  /\ BookInstance.__str__ shelf_copy
     = Ok (str_uuid (BookInstance.id shelf_copy)
           ++ " (" ++ Book.title ficciones ++ ")").
Proof.
  split.
  - reflexivity.
  - apply (bookinstance_str_format shelf_copy ficciones). reflexivity.
Defined.

(** C3. [BookInstance.__str__] is partial: with a null book it raises
    [AttributeError] on [.title], and it returns a string exactly when the
    book is set. The record type admits the null book. *)
Theorem bookinstance_str_partial (self : BookInstance.t) :
  (returns (BookInstance.__str__ self) <-> BookInstance.book self <> None)
  /\ (forall i im d bo st,
        BookInstance.__str__ (BookInstance.create i None im d bo st)
        = Raise (AttributeError "'NoneType' object has no attribute 'title'")).
Proof.
  split; [split|].
  - intros [s Hs] Hnull.
    unfold BookInstance.__str__, BookInstance.book_title in Hs.
    rewrite Hnull in Hs. discriminate Hs.
  - intros Hset. destruct (BookInstance.book self) as [b|] eqn:Hb.
    + eexists. apply str_after_title. now apply (book_title_set self b).
    + now elim Hset.
  - reflexivity.
Qed.

(** C6. [Author.__str__] returns the last name, a comma, a space and the
    first name. *)
Theorem author_str_format (self : Author.t) :
  Author.__str__ self
  = Ok (Author.last_name self ++ ", " ++ Author.first_name self).
Proof.
  unfold Author.__str__. apply format_pair_comma.
Qed.

(** C7. [__str__] of a genre and of a language is the [name] field, and of
    a book the [title] field, unchanged. *)
Theorem plain_str_fields (g : Genre.t) (l : Language.t) (b : Book.t) :
  Genre.__str__ g = Genre.name g
  /\ Language.__str__ l = Language.name l
  /\ Book.__str__ b = Book.title b.
Proof.
  repeat split.
Qed.

(** ** URLs *)

(** C5. [get_absolute_url] of a book resolves the route [book-detail], and
    of an author the route [author-detail], with the single argument
    [str(id)], whatever the URL configuration. *)
Theorem get_absolute_url_routes (urls : URLResolver) (b : Book.t)
        (a : Author.t) :
  @Book.get_absolute_url urls b
  = @reverse urls "book-detail" [str_int (Book.id b)]
  /\ @Author.get_absolute_url urls a
     = @reverse urls "author-detail" [str_int (Author.id a)].
Proof.
  split; reflexivity.
Qed.

(** ** Book.display_genre *)

(** C8. [display_genre] joins with [", "] the names of the first three
    genres of the book: all of them when there are at most three, the
    first three when there are more, the empty string when there are
    none. *)
Theorem display_genre_first_three (self : Book.t) :
  Book.display_genre self
  = join ", " (map Genre.name
                 (if (List.length (Book.genre self) <=? 3)%nat
                  then Book.genre self
                  else firstn 3 (Book.genre self)))
  /\ Book.display_genre self
     = match Book.genre self with
       | [] => ""
       | [g1] => Genre.name g1
       | [g1; g2] => Genre.name g1 ++ ", " ++ Genre.name g2
       | g1 :: g2 :: g3 :: _ =>
           Genre.name g1 ++ ", " ++ Genre.name g2 ++ ", " ++ Genre.name g3
       end.
Proof.
  unfold Book.display_genre, slice_to.
  destruct (Book.genre self) as [|g1 [|g2 [|g3 [|g4 rest]]]];
    split; reflexivity.
Qed.

(** ** BookInstance.status *)

Lemma is_choice_loan_status (v : string) :
  is_choice v BookInstance.LOAN_STATUS = true <-> In v loan_codes.
Proof.
  unfold is_choice, BookInstance.LOAN_STATUS, loan_codes. cbn.
  rewrite !orb_true_iff, !String.eqb_eq. intuition congruence.
Qed.

Lemma clean_status_nonempty (v : string) :
  v <> "" ->
  clean BookInstance.status_field v
  = if is_choice v BookInstance.LOAN_STATUS
    then (if (1 <? len v)%nat
          then Raise (ValidationError "max_length") else Ok v)
    else Raise (ValidationError "invalid_choice").
Proof.
  intros Hne. apply String.eqb_neq in Hne.
  unfold clean, validate, run_validators, is_empty.
  cbn [blank choices max_length BookInstance.status_field andb].
  rewrite Hne. cbn [negb].
  destruct (is_choice v BookInstance.LOAN_STATUS); cbn [bind];
    [destruct (1 <? len v)%nat|]; reflexivity.
Qed.

(** C4, as stated, fails: the field is declared [blank=True], so a copy
    saved with an empty status passes validation, and the empty string is
    none of the four codes. *)
Lemma blank_status_is_clean :
  clean BookInstance.status_field (BookInstance.status blank_copy) = Ok ""
  /\ ~ In (BookInstance.status blank_copy) loan_codes.
Proof.
  split.
  - reflexivity.
  - cbn. intuition discriminate.
Qed.

(** C4, amended. The declared choices are the four codes [m], [o], [a],
    [r] with their labels; a copy created without a status has status
    [m]; validation accepts a status exactly when it is empty or one of
    the four codes; no method of the class changes the status. *)
Theorem status_field_values :
  map fst BookInstance.LOAN_STATUS = loan_codes
  /\ map snd BookInstance.LOAN_STATUS
     = ["Maintenance"; "On loan"; "Available"; "Reserved"]
  /\ (forall i b im d bo,
        BookInstance.status (BookInstance.create i b im d bo None) = "m")
  /\ (forall v, returns (clean BookInstance.status_field v)
                <-> v = "" \/ In v loan_codes)
  /\ (forall m self,
        BookInstance.status (fst (BookInstance.call m self))
        = BookInstance.status self).
Proof.
  repeat split.
  - destruct (String.eqb_spec v "") as [->|Hne]; [now left|].
    intros [w Hw]. right. apply is_choice_loan_status.
    rewrite (clean_status_nonempty v Hne) in Hw.
    destruct (is_choice v BookInstance.LOAN_STATUS);
      [reflexivity | discriminate Hw].
  - intros [-> | Hin].
    + now exists "".
    + exists v.
      assert (Hne : v <> "") by (intros ->; cbn in Hin; intuition discriminate).
      rewrite (clean_status_nonempty v Hne).
      apply is_choice_loan_status in Hin as Hc. rewrite Hc.
      cbn in Hin.
      destruct Hin as [<-|[<-|[<-|[<-|[]]]]]; reflexivity.
  - destruct m; reflexivity.
Qed.

(** ** Default ordering *)

Section SortRows.
Context {Row : Type}.
Variable c : row_cmp Row.
Hypothesis c_antisym : forall a b, c b a = CompOpp (c a b).
Hypothesis c_trans :
  forall x y z, c x y <> Gt -> c y z <> Gt -> c x z <> Gt.

Lemma le_of_true (a b : Row) : le_of c a b = true -> c a b <> Gt.
Proof.
  unfold le_of. destruct (c a b); congruence.
Qed.

Lemma le_of_false (a b : Row) : le_of c a b = false -> c b a <> Gt.
Proof.
  unfold le_of. rewrite (c_antisym a b).
  destruct (c a b); cbn; congruence.
Qed.

Lemma insert_row_perm (x : Row) (rows : list Row) :
  Permutation (x :: rows) (insert_row c x rows).
Proof.
  induction rows as [|y rest IH]; cbn.
  - reflexivity.
  - destruct (le_of c x y).
    + reflexivity.
    + rewrite perm_swap. now constructor.
Qed.

Lemma sort_rows_perm (rows : list Row) :
  Permutation rows (sort_rows c rows).
Proof.
  induction rows as [|x rest IH]; cbn.
  - constructor.
  - rewrite <- insert_row_perm. now constructor.
Qed.

Lemma insert_row_sorted (x : Row) (rows : list Row) :
  StronglySorted (fun a b => c a b <> Gt) rows ->
  StronglySorted (fun a b => c a b <> Gt) (insert_row c x rows).
Proof.
  induction 1 as [|y rest Hrest IH Hy]; cbn.
  - repeat constructor.
  - destruct (le_of c x y) eqn:Hle.
    + apply le_of_true in Hle.
      constructor; [now constructor|].
      constructor; [exact Hle|].
      revert Hy. apply Forall_impl. intros z Hz. now apply (c_trans x y z).
    + apply le_of_false in Hle.
      constructor; [exact IH|].
      apply (Permutation_Forall (insert_row_perm x rest)).
      now constructor.
Qed.

Lemma sort_rows_sorted (rows : list Row) :
  StronglySorted (fun a b => c a b <> Gt) (sort_rows c rows).
Proof.
  induction rows as [|x rest IH]; cbn.
  - constructor.
  - now apply insert_row_sorted.
Qed.
End SortRows.

Lemma StronglySorted_weaken {A : Type} (R R' : A -> A -> Prop)
      (l : list A) :
  (forall a b, R a b -> R' a b) -> StronglySorted R l -> StronglySorted R' l.
Proof.
  intros HR. induction 1 as [|a l Hl IH Ha]; constructor.
  - exact IH.
  - revert Ha. apply Forall_impl. intros b. apply HR.
Qed.

Lemma then_by_last {Row : Type} (c : row_cmp Row) (a b : Row) :
  then_by c (fun _ _ => Eq) a b = c a b.
Proof.
  unfold then_by. now destruct (c a b).
Qed.

Lemma date_cmp_le (a b : date) : date_cmp a b <> Gt <-> ~ later a b.
Proof.
  rewrite <- date_gt_later. unfold date_gt.
  destruct (date_cmp a b); split; congruence.
Qed.

Lemma date_cmp_trans (a b c : date) :
  date_cmp a b <> Gt -> date_cmp b c <> Gt -> date_cmp a c <> Gt.
Proof.
  rewrite !date_cmp_le. unfold later. lia.
Qed.

Section NullCmp.
Context {K : Type}.
Variables (be : Backend) (cmp : K -> K -> comparison).
Hypothesis cmp_antisym : forall a b, cmp b a = CompOpp (cmp a b).
Hypothesis cmp_trans :
  forall x y z, cmp x y <> Gt -> cmp y z <> Gt -> cmp x z <> Gt.

Lemma null_cmp_antisym (x y : option K) :
  null_cmp be cmp y x = CompOpp (null_cmp be cmp x y).
Proof.
  unfold null_cmp.
  destruct x, y, (nulls_smallest be); cbn; auto.
Qed.

Lemma null_cmp_trans (x y z : option K) :
  null_cmp be cmp x y <> Gt -> null_cmp be cmp y z <> Gt ->
  null_cmp be cmp x z <> Gt.
Proof.
  unfold null_cmp.
  destruct x, y, z, (nulls_smallest be); cbn; eauto; congruence.
Qed.
End NullCmp.

Lemma listing_sorted {Row K : Type} (columns : string -> option (row_cmp Row))
      (meta : ORM.Meta) (field : string) (cmp : K -> K -> comparison)
      (key : Row -> K) (table : list Row) :
  ordering meta = [field] ->
  resolve_term columns field = Some (on cmp key) ->
  (forall a b, cmp b a = CompOpp (cmp a b)) ->
  (forall x y z, cmp x y <> Gt -> cmp y z <> Gt -> cmp x z <> Gt) ->
  exists rows,
    listing columns meta None table = Ok rows
    /\ Permutation table rows
    /\ ascending_by cmp key rows.
Proof.
  intros Hmeta Hcol Hanti Htrans.
  unfold listing. rewrite Hmeta. cbn [resolve_ordering]. rewrite Hcol.
  eexists. split; [reflexivity|]. split.
  - apply sort_rows_perm.
  - unfold ascending_by.
    eapply StronglySorted_weaken; [| apply sort_rows_sorted ].
    + intros a b. cbv beta. now rewrite then_by_last.
    + intros a b. rewrite !then_by_last. apply Hanti.
    + intros x y z. rewrite !then_by_last. apply Htrans.
Qed.

Lemma string_compare_trans (a b c : string) :
  String.compare a b <> Gt -> String.compare b c <> Gt ->
  String.compare a c <> Gt.
Proof.
  revert b c.
  induction a as [|x a IH]; intros [|y b] [|z c]; cbn; try congruence.
  unfold Ascii.compare.
  destruct (N.compare_spec (N_of_ascii x) (N_of_ascii y));
    destruct (N.compare_spec (N_of_ascii y) (N_of_ascii z));
    destruct (N.compare_spec (N_of_ascii x) (N_of_ascii z));
    try congruence; try lia.
  apply IH.
Qed.

Lemma binary_collation_ok : collation_ok binary_backend.
Proof.
  split.
  - intros a b. apply String.compare_antisym.
  - intros a b c. apply string_compare_trans.
Qed.

Example loans_listed :
  fmap (map BookInstance.due_back) (BookInstance.objects binary_backend None loans)
  = Ok [ None; Some (mkdate 2020 12 31); Some (mkdate 2021 9 30);
         Some (mkdate 2021 10 4) ].
Proof. vm_compute. reflexivity. Qed.

Example loans_listed_latest_first :
  fmap (map BookInstance.due_back)
       (BookInstance.objects binary_backend (Some ["-due_back"]) loans)
  = Ok [ Some (mkdate 2021 10 4); Some (mkdate 2021 9 30);
         Some (mkdate 2020 12 31); None ].
Proof. vm_compute. reflexivity. Qed.

Example writers_listed :
  Author.objects binary_backend None writers = Ok [borges; cortazar].
Proof. vm_compute. reflexivity. Qed.

(** C9. A query that gives no ordering of its own lists the copies in
    ascending order of [due_back], and the authors in ascending order of
    [last_name]: the listing succeeds, holds the rows of the table, and is
    sorted. Where NULL sorts and how text is collated is the backend's. *)
Theorem default_ordering (be : Backend) (Hcollation : collation_ok be)
        (copies : list BookInstance.t) (authors : list Author.t) :
  (exists rows,
      BookInstance.objects be None copies = Ok rows
      /\ Permutation copies rows
      /\ ascending_by (null_cmp be date_cmp) BookInstance.due_back rows)
  /\ (exists rows,
        Author.objects be None authors = Ok rows
        /\ Permutation authors rows
        /\ ascending_by (collate be) Author.last_name rows).
Proof.
  destruct Hcollation as [Hanti Htrans].
  split.
  - apply (listing_sorted (BookInstance.columns be) BookInstance.Meta
             "due_back").
    + reflexivity.
    + reflexivity.
    + apply null_cmp_antisym, date_cmp_antisym.
    + apply null_cmp_trans, date_cmp_trans.
  - apply (listing_sorted (Author.columns be) Author.Meta "last_name").
    + reflexivity.
    + reflexivity.
    + exact Hanti.
    + exact Htrans.
Qed.

Lemma default_ordering_witness :
  collation_ok binary_backend
  /\ (exists rows,
        BookInstance.objects binary_backend None loans = Ok rows
        /\ Permutation loans rows
        /\ ascending_by (null_cmp binary_backend date_cmp)
                        BookInstance.due_back rows)
  /\ (exists rows,
        Author.objects binary_backend None writers = Ok rows
        /\ Permutation writers rows
        /\ ascending_by (collate binary_backend) Author.last_name rows).
Proof.
  split.
  - exact binary_collation_ok.
  - exact (default_ordering binary_backend binary_collation_ok loans writers).
Defined.

(** ** Determinism *)




(** ** Strings: splitting at a separator *)

Lemma occurs_append (c : ascii) (a b : string) :
  occurs c (a ++ b) = occurs c a || occurs c b.
Proof.
  induction a as [|x a IH]; cbn; [reflexivity|].
  now rewrite IH, orb_assoc.
Qed.

Lemma append_length (a b : string) :
  String.length (a ++ b) = (String.length a + String.length b)%nat.
Proof.
  induction a as [|x a IH]; cbn; [reflexivity | now rewrite IH].
Qed.

Lemma append_assoc (a b c : string) : (a ++ b) ++ c = a ++ (b ++ c).
Proof.
  induction a as [|x a IH]; cbn; [reflexivity | now rewrite IH].
Qed.

Lemma append_cancel_r (a b t : string) : a ++ t = b ++ t -> a = b.
Proof.
  revert b. induction a as [|x a IH]; intros [|y b]; cbn; intros H.
  - reflexivity.
  - apply (f_equal String.length) in H. cbn in H.
    rewrite append_length in H. lia.
  - apply (f_equal String.length) in H. cbn in H.
    rewrite append_length in H. lia.
  - injection H as -> H. f_equal. now apply IH.
Qed.

(** Two strings cut at the first occurrence of [c] are equal only when
    both sides of the cut are. *)
Lemma split_at_first (c : ascii) (a a' r r' : string) :
  occurs c a = false -> occurs c a' = false ->
  a ++ String c r = a' ++ String c r' -> a = a' /\ r = r'.
Proof.
  revert a'. induction a as [|x a IH]; intros [|y a'] Ha Ha'; cbn in *.
  - intros [= ->]. now split.
  - intros [= <- _]. now rewrite Ascii.eqb_refl in Ha'.
  - intros [= -> _]. now rewrite Ascii.eqb_refl in Ha.
  - apply orb_false_iff in Ha as [_ Ha], Ha' as [_ Ha'].
    intros [= -> H]. destruct (IH a' Ha Ha' H) as [-> ->]. now split.
Qed.

(** ** Author.__str__: when the text identifies the names *)

(** X1. If neither last name holds a comma, equal texts come from equal last
    and first names. *)
Theorem author_str_injective (a a' : Author.t)
        (Hlast : occurs "," (Author.last_name a) = false)
        (Hlast' : occurs "," (Author.last_name a') = false)
        (Hsame : Author.__str__ a = Author.__str__ a') :
  Author.last_name a = Author.last_name a'
  /\ Author.first_name a = Author.first_name a'.
Proof.
  unfold Author.__str__ in Hsame. rewrite !format_pair_comma in Hsame.
  injection Hsame as Hsame.
  destruct (split_at_first "," _ _ _ _ Hlast Hlast' Hsame) as [Hl Hf].
  split; [exact Hl|]. now injection Hf.
Qed.

Lemma author_str_injective_witness :
  Author.last_name borges = Author.last_name borges_undated
  /\ Author.first_name borges = Author.first_name borges_undated.
Proof.
  apply (author_str_injective borges borges_undated); reflexivity.
Defined.

(** X2. A comma followed by a space inside a last name is read as the cut: the
    author with last name [l ++ ", " ++ m] and first name [f] prints as the
    author with last name [l] and first name [m ++ ", " ++ f]. *)
Theorem author_str_ambiguous (l m f : string) (i i' : Z)
        (b b' d d' : option date) :
  Author.__str__
    {| Author.id := i; Author.first_name := f;
       Author.last_name := l ++ ", " ++ m;
       Author.date_of_birth := b; Author.date_of_death := d |}
  = Author.__str__
      {| Author.id := i'; Author.first_name := m ++ ", " ++ f;
         Author.last_name := l;
         Author.date_of_birth := b'; Author.date_of_death := d' |}.
Proof.
  unfold Author.__str__. rewrite !format_pair_comma. cbn.
  f_equal. now rewrite append_assoc.
Qed.

(** ** Rendered UUIDs read back *)

Lemma substring_split (s : string) (a b c : nat) :
  substring a b s ++ substring (a + b) c s = substring a (b + c) s.
Proof.
  revert a b. induction s as [|x s IH]; intros a b.
  - destruct a, b, c; reflexivity.
  - destruct a as [|a].
    + destruct b as [|b]; cbn; [reflexivity|].
      f_equal. apply (IH 0%nat b).
    + cbn. apply IH.
Qed.

Lemma substring_whole (s : string) (n : nat) :
  (String.length s <= n)%nat -> substring 0 n s = s.
Proof.
  revert n. induction s as [|x s IH]; intros [|n] H; cbn in *;
    try reflexivity; try lia.
  f_equal. apply IH. lia.
Qed.

Lemma occurs_substring (c : ascii) (s : string) (n m : nat) :
  occurs c s = false -> occurs c (substring n m s) = false.
Proof.
  revert n m. induction s as [|x s IH]; intros n m H.
  - destruct n, m; reflexivity.
  - cbn in H. apply orb_false_iff in H as [Hx Hs].
    destruct n as [|n].
    + destruct m as [|m]; cbn; [reflexivity|]. now rewrite Hx, IH.
    + cbn. now apply IH.
Qed.

Lemma strip_hyphens_append (a b : string) :
  strip_hyphens (a ++ b) = strip_hyphens a ++ strip_hyphens b.
Proof.
  induction a as [|x a IH]; cbn; [reflexivity|].
  destruct (Ascii.eqb x "-"); cbn; now rewrite IH.
Qed.

Lemma strip_hyphens_none (s : string) :
  occurs "-" s = false -> strip_hyphens s = s.
Proof.
  induction s as [|x s IH]; cbn; [reflexivity|].
  intros H. apply orb_false_iff in H as [-> Hs]. now rewrite IH.
Qed.

(** A character that is no hexadecimal digit occurs in no rendered
    number. *)
Lemma digits_only (c : ascii) (d : Hexadecimal.uint) :
  occurs c "0123456789abcdef" = false ->
  occurs c (HexadecimalString.NilEmpty.string_of_uint d) = false.
Proof.
  intros Hc. cbn in Hc.
  repeat (apply orb_false_iff in Hc as [? Hc]).
  induction d; cbn; rewrite ?IHd; rewrite ?orb_false_r; assumption || reflexivity.
Qed.

Lemma to_hex_uint_not_nil (n : N) : N.to_hex_uint n <> Hexadecimal.Nil.
Proof.
  destruct n as [|p]; [discriminate|].
  intros H. apply (f_equal N.of_hex_uint) in H.
  rewrite HexadecimalN.Unsigned.of_to in H. discriminate H.
Qed.

Lemma hex_digits (n : N) :
  hex n = HexadecimalString.NilEmpty.string_of_uint (N.to_hex_uint n).
Proof.
  unfold hex, HexadecimalString.NilZero.string_of_uint.
  pose proof (to_hex_uint_not_nil n) as H.
  destruct (N.to_hex_uint n); [now elim H | reflexivity ..].
Qed.

Lemma occurs_zeros (c : ascii) (k : nat) :
  Ascii.eqb "0" c = false -> occurs c (zeros k) = false.
Proof.
  intros H. induction k as [|k IH]; cbn [occurs zeros];
    [reflexivity | now rewrite H, IH].
Qed.

Lemma occurs_hex32 (c : ascii) (n : N) :
  occurs c "0123456789abcdef" = false -> occurs c (hex32 n) = false.
Proof.
  intros Hc. unfold hex32. rewrite occurs_append, hex_digits.
  rewrite (digits_only c _ Hc), orb_false_r.
  apply occurs_zeros. cbn in Hc. now apply orb_false_iff in Hc as [? _].
Qed.

Lemma unhex_hex (n : N) : unhex (hex n) = Some n.
Proof.
  unfold unhex. rewrite hex_digits, HexadecimalString.NilEmpty.usu. cbn.
  now rewrite HexadecimalN.Unsigned.of_to.
Qed.

Lemma unhex_zeros (k : nat) (s : string) : unhex (zeros k ++ s) = unhex s.
Proof.
  induction k as [|k IH]; cbn; [reflexivity|].
  rewrite <- IH. unfold unhex. cbn.
  now destruct (HexadecimalString.NilEmpty.uint_of_string (zeros k ++ s)).
Qed.

Lemma hex32_length (n : N) : (32 <= String.length (hex32 n))%nat.
Proof.
  unfold hex32. rewrite append_length.
  assert (String.length (zeros (32 - String.length (hex n)))
          = (32 - String.length (hex n))%nat) as ->.
  { generalize (32 - String.length (hex n))%nat.
    induction n0; cbn; congruence. }
  lia.
Qed.

Lemma strip_hyphens_joined (a b : string) :
  strip_hyphens (a ++ "-" ++ b) = strip_hyphens a ++ strip_hyphens b.
Proof.
  now rewrite strip_hyphens_append.
Qed.

Lemma substring_groups (h : string) :
  (20 <= String.length h)%nat ->
  substring 0 8 h ++ substring 8 4 h ++ substring 12 4 h
    ++ substring 16 4 h ++ substring 20 (String.length h - 20) h
  = h.
Proof.
  intros Hlen. set (k := (String.length h - 20)%nat).
  assert (E1 : substring 16 4 h ++ substring 20 k h
               = substring 16 (4 + k) h)
    by apply (substring_split h 16 4 k).
  assert (E2 : substring 12 4 h ++ substring 16 (4 + k) h
               = substring 12 (4 + (4 + k)) h)
    by apply (substring_split h 12 4 (4 + k)).
  assert (E3 : substring 8 4 h ++ substring 12 (4 + (4 + k)) h
               = substring 8 (4 + (4 + (4 + k))) h)
    by apply (substring_split h 8 4 (4 + (4 + k))).
  assert (E4 : substring 0 8 h ++ substring 8 (4 + (4 + (4 + k))) h
               = substring 0 (8 + (4 + (4 + (4 + k)))) h)
    by apply (substring_split h 0 8 (4 + (4 + (4 + k)))).
  rewrite E1, E2, E3, E4. apply substring_whole. lia.
Qed.

(** The digits of a rendered UUID, hyphens dropped, are the 32 padded
    digits it was built from. *)
Lemma str_uuid_digits (u : UUID) :
  strip_hyphens (str_uuid u) = hex32 (int u).
Proof.
  unfold str_uuid. cbv zeta.
  pose proof (hex32_length (int u)) as Hlen.
  assert (Hno : occurs "-" (hex32 (int u)) = false)
    by (now apply occurs_hex32).
  set (h := hex32 (int u)) in *.
  rewrite !strip_hyphens_joined.
  rewrite !strip_hyphens_none by (now apply occurs_substring).
  apply substring_groups. lia.
Qed.

Lemma uuid_of_str_uuid (u : UUID) : uuid_of_str (str_uuid u) = Some u.
Proof.
  unfold uuid_of_str. rewrite str_uuid_digits. unfold hex32.
  rewrite unhex_zeros, unhex_hex. now destruct u.
Qed.

Lemma str_uuid_no_space (u : UUID) : occurs " " (str_uuid u) = false.
Proof.
  unfold str_uuid. cbv zeta.
  assert (Hno : occurs " " (hex32 (int u)) = false)
    by (now apply occurs_hex32).
  rewrite !occurs_append, !(occurs_substring " " _ _ _ Hno).
  reflexivity.
Qed.

(** ** BookInstance.__str__: what the text identifies *)

Lemma str_returns_inv (c : BookInstance.t) (s : string) :
  BookInstance.__str__ c = Ok s ->
  exists b, BookInstance.book c = Some b
            /\ s = str_uuid (BookInstance.id c) ++ " (" ++ Book.title b ++ ")".
Proof.
  intros Hs. destruct (BookInstance.book c) as [b|] eqn:Hb.
  - exists b. split; [reflexivity|].
    rewrite (str_after_title c (Book.title b)) in Hs
      by (now apply book_title_set).
    now injection Hs.
  - unfold BookInstance.__str__, BookInstance.book_title in Hs.
    rewrite Hb in Hs. discriminate Hs.
Qed.

(** X3. Two copies whose [__str__] return the same text have the same id and
    books of the same title: the text of a copy names the copy. *)
Theorem bookinstance_str_identifies (c c' : BookInstance.t) (s : string)
        (Hc : BookInstance.__str__ c = Ok s)
        (Hc' : BookInstance.__str__ c' = Ok s) :
  BookInstance.id c = BookInstance.id c'
  /\ option_map Book.title (BookInstance.book c)
     = option_map Book.title (BookInstance.book c').
Proof.
  destruct (str_returns_inv c s Hc) as (b & Hb & Hs).
  destruct (str_returns_inv c' s Hc') as (b' & Hb' & Hs').
  rewrite Hs in Hs'.
  change (str_uuid (BookInstance.id c)
            ++ String " " ("(" ++ Book.title b ++ ")")
          = str_uuid (BookInstance.id c')
            ++ String " " ("(" ++ Book.title b' ++ ")")) in Hs'.
  apply split_at_first in Hs' as [Hid Ht]; try apply str_uuid_no_space.
  split.
  - apply (f_equal uuid_of_str) in Hid.
    rewrite !uuid_of_str_uuid in Hid. now injection Hid.
  - rewrite Hb, Hb'. cbn. f_equal.
    injection Ht as Ht. now apply append_cancel_r in Ht.
Qed.

Lemma bookinstance_str_identifies_witness :
  BookInstance.id shelf_copy = BookInstance.id lent_copy
  /\ option_map Book.title (BookInstance.book shelf_copy)
     = option_map Book.title (BookInstance.book lent_copy).
Proof.
  apply (bookinstance_str_identifies shelf_copy lent_copy
           "01234567-89ab-cdef-0123-456789abcdef (Ficciones)");
    vm_compute; reflexivity.
Defined.

(** ** get_absolute_url: distinct rows, distinct arguments *)

Lemma to_int_proper (z : Z) :
  Z.to_int z <> Decimal.Pos Decimal.Nil /\ Z.to_int z <> Decimal.Neg Decimal.Nil.
Proof.
  destruct z as [|p|p]; cbn; split; try discriminate;
    intros [= H]; apply (f_equal Pos.of_uint) in H;
    rewrite DecimalPos.Unsigned.of_to in H; discriminate H.
Qed.

Lemma int_of_str_int (z : Z) : int_of_str (str_int z) = Some z.
Proof.
  unfold int_of_str, str_int.
  destruct (to_int_proper z) as [Hp Hn].
  rewrite DecimalString.NilZero.isi by assumption. cbn.
  now rewrite DecimalZ.of_to.
Qed.

Lemma str_int_injective (x y : Z) : str_int x = str_int y -> x = y.
Proof.
  intros H. apply (f_equal int_of_str) in H.
  rewrite !int_of_str_int in H. now injection H.
Qed.

(** X4. Under a URL configuration that gives distinct arguments of the
    route [book-detail] distinct URLs, two books with the same URL have the
    same id; and, separately, the same for two authors and the route
    [author-detail]. *)
Theorem get_absolute_url_identifies (urls : URLResolver) :
  ((forall x y u,
       @reverse urls "book-detail" [x] = Ok u ->
       @reverse urls "book-detail" [y] = Ok u -> x = y)
   -> forall (b b' : Book.t) (u : string),
       @Book.get_absolute_url urls b = Ok u ->
       @Book.get_absolute_url urls b' = Ok u ->
       Book.id b = Book.id b')
  /\ ((forall x y u,
         @reverse urls "author-detail" [x] = Ok u ->
         @reverse urls "author-detail" [y] = Ok u -> x = y)
      -> forall (a a' : Author.t) (u : string),
          @Author.get_absolute_url urls a = Ok u ->
          @Author.get_absolute_url urls a' = Ok u ->
          Author.id a = Author.id a').
Proof.
  split; intros Hroute r r' u Hr Hr'; apply str_int_injective;
    exact (Hroute _ _ u Hr Hr').
Qed.

Lemma example_urls_distinct (name x y u : string) :
  @reverse example_urls name [x] = Ok u ->
  @reverse example_urls name [y] = Ok u -> x = y.
Proof.
  cbn.
  destruct (String.eqb name "book-detail");
    [| destruct (String.eqb name "author-detail")];
    intros H1 H2; try discriminate H1;
    rewrite <- H2 in H1; now injection H1.
Qed.

(** A configuration that routes books only. *)
Lemma books_only_distinct (x y u : string) :
  @reverse books_only_urls "book-detail" [x] = Ok u ->
  @reverse books_only_urls "book-detail" [y] = Ok u -> x = y.
Proof.
  cbn. intros H1 H2. rewrite <- H2 in H1. now injection H1.
Qed.

Lemma get_absolute_url_identifies_witness :
  Book.id ficciones = Book.id ficciones_reissue
  /\ Author.id borges = Author.id borges_undated.
Proof.
  split.
  - apply (proj1 (get_absolute_url_identifies books_only_urls)
             books_only_distinct ficciones ficciones_reissue
             "/catalog/book/12");
      vm_compute; reflexivity.
  - apply (proj2 (get_absolute_url_identifies example_urls)
             (example_urls_distinct "author-detail") borges borges_undated
             "/catalog/author/7");
      vm_compute; reflexivity.
Defined.

(** ** is_overdue over time and along the default listing *)

Lemma is_overdue_eval (today : date) (c : BookInstance.t) :
  BookInstance.is_overdue today c
  = Ok match BookInstance.due_back c with
       | Some d => date_gt today d
       | None => false
       end.
Proof.
  unfold BookInstance.is_overdue.
  destruct (BookInstance.due_back c) as [d|]; cbn;
    [destruct (date_gt today d)|]; reflexivity.
Qed.

Lemma is_overdue_true (today : date) (c : BookInstance.t) :
  BookInstance.is_overdue today c = Ok true
  <-> exists d, BookInstance.due_back c = Some d /\ later today d.
Proof.
  rewrite is_overdue_eval.
  destruct (BookInstance.due_back c) as [d|]; split.
  - intros [= H]. exists d. split; [reflexivity | now apply date_gt_later].
  - intros (d' & [= <-] & H). apply date_gt_later in H. now rewrite H.
  - discriminate.
  - intros (d' & H & _). discriminate H.
Qed.

(** X5. A copy that is overdue stays overdue: if it is overdue on one day, it
    is overdue on every day that is not earlier. *)
Theorem is_overdue_persists (today today' : date) (c : BookInstance.t)
        (Hoverdue : BookInstance.is_overdue today c = Ok true)
        (Hnot_earlier : ~ later today today') :
  BookInstance.is_overdue today' c = Ok true.
Proof.
  apply is_overdue_true in Hoverdue as (d & Hd & Hlater).
  apply is_overdue_true. exists d. split; [exact Hd|].
  unfold later in *. lia.
Qed.

Lemma is_overdue_persists_witness :
  BookInstance.is_overdue (mkdate 2022 1 1) shelf_copy = Ok true.
Proof.
  apply (is_overdue_persists (mkdate 2021 10 1) (mkdate 2022 1 1) shelf_copy).
  - reflexivity.
  - unfold later; cbn; lia.
Defined.

Lemma StronglySorted_nth {A : Type} (R : A -> A -> Prop) (l : list A)
      (i j : nat) (a b : A) :
  StronglySorted R l -> (i < j)%nat ->
  nth_error l i = Some a -> nth_error l j = Some b -> R a b.
Proof.
  intros Hs. revert i j.
  induction Hs as [|x l Hl IH Hx]; intros i j Hij Hi Hj.
  - destruct i; discriminate Hi.
  - destruct j as [|j]; [lia|]. cbn in Hj.
    destruct i as [|i]; cbn in Hi.
    + injection Hi as ->.
      rewrite Forall_forall in Hx. apply Hx. eapply nth_error_In, Hj.
    + apply (IH i j); [lia | assumption | assumption].
Qed.

Lemma copies_listed (be : Backend) (table : list BookInstance.t) :
  exists rows,
    BookInstance.objects be None table = Ok rows
    /\ Permutation table rows
    /\ ascending_by (null_cmp be date_cmp) BookInstance.due_back rows.
Proof.
  apply (listing_sorted (BookInstance.columns be) BookInstance.Meta
           "due_back").
  - reflexivity.
  - reflexivity.
  - apply null_cmp_antisym, date_cmp_antisym.
  - apply null_cmp_trans, date_cmp_trans.
Qed.

(** X6. In the default listing of the copies, the overdue ones are not
    preceded by copies that are due but not overdue: a copy with a due
    date listed before an overdue copy is overdue as well. *)
Theorem overdue_listed_together (be : Backend) (today : date)
        (table rows : list BookInstance.t) (i j : nat)
        (a b : BookInstance.t) (d : date)
        (Hrows : BookInstance.objects be None table = Ok rows)
        (Hij : (i < j)%nat)
        (Ha : nth_error rows i = Some a)
        (Hb : nth_error rows j = Some b)
        (Hdue : BookInstance.due_back a = Some d)
        (Hoverdue : BookInstance.is_overdue today b = Ok true) :
  BookInstance.is_overdue today a = Ok true.
Proof.
  destruct (copies_listed be table) as (rows' & Hrows' & _ & Hsorted).
  rewrite Hrows in Hrows'. injection Hrows' as <-.
  pose proof (StronglySorted_nth _ rows i j a b Hsorted Hij Ha Hb) as Hle.
  cbv beta in Hle.
  apply is_overdue_true in Hoverdue as (db & Hdb & Hlater).
  rewrite Hdue, Hdb in Hle. cbn in Hle. apply date_cmp_le in Hle.
  apply is_overdue_true. exists d. split; [exact Hdue|].
  unfold later in *. lia.
Qed.

Lemma overdue_listed_together_witness :
  BookInstance.is_overdue (mkdate 2021 10 1)
    (copy_due 4 (Some (mkdate 2020 12 31))) = Ok true.
Proof.
  apply (overdue_listed_together binary_backend (mkdate 2021 10 1) loans
           [ copy_due 2 None;
             copy_due 4 (Some (mkdate 2020 12 31));
             copy_due 3 (Some (mkdate 2021 9 30));
             copy_due 1 (Some (mkdate 2021 10 4)) ]
           1 2
           (copy_due 4 (Some (mkdate 2020 12 31)))
           (copy_due 3 (Some (mkdate 2021 9 30)))
           (mkdate 2020 12 31)).
  - vm_compute; reflexivity.
  - lia.
  - reflexivity.
  - reflexivity.
  - reflexivity.
  - vm_compute; reflexivity.
Defined.

(** ** Deleting a referenced row *)


Section SortedKeys.
Context {K : Type}.
Variable cmp : K -> K -> comparison.
Hypothesis cmp_antisym : forall a b, cmp b a = CompOpp (cmp a b).
Hypothesis cmp_eq : forall a b, cmp a b = Eq -> a = b.

Lemma cmp_refl_le (a : K) : cmp a a <> Gt.
Proof.
  pose proof (cmp_antisym a a) as H.
  destruct (cmp a a); cbn in H; congruence.
Qed.

Lemma cmp_le_antisym (a b : K) : cmp a b <> Gt -> cmp b a <> Gt -> a = b.
Proof.
  intros Hab Hba. apply cmp_eq.
  rewrite (cmp_antisym a b) in Hba.
  destruct (cmp a b); cbn in Hba; congruence.
Qed.

(** Two sorted lists with the same elements are the same list: the order
    among equal keys cannot be seen on the keys. *)
Lemma sorted_keys_unique (l1 l2 : list K) :
  Permutation l1 l2 ->
  StronglySorted (fun a b => cmp a b <> Gt) l1 ->
  StronglySorted (fun a b => cmp a b <> Gt) l2 ->
  l1 = l2.
Proof.
  revert l2. induction l1 as [|a l1 IH]; intros l2 Hperm Hs1 Hs2.
  - now apply Permutation_nil in Hperm.
  - destruct l2 as [|b l2].
    + apply Permutation_sym, Permutation_nil in Hperm. discriminate Hperm.
    + apply StronglySorted_inv in Hs1 as [Hs1 Ha].
      apply StronglySorted_inv in Hs2 as [Hs2 Hb].
      rewrite Forall_forall in Ha, Hb.
      assert (Hab : a = b).
      { apply cmp_le_antisym.
        - assert (Hin : In b (a :: l1))
            by (apply (Permutation_in b (Permutation_sym Hperm)); now left).
          destruct Hin as [<- | Hin]; [apply cmp_refl_le | now apply Ha].
        - assert (Hin : In a (b :: l2))
            by (apply (Permutation_in a Hperm); now left).
          destruct Hin as [<- | Hin]; [apply cmp_refl_le | now apply Hb]. }
      subst b. f_equal. apply IH; [| assumption | assumption].
      now apply Permutation_cons_inv in Hperm.
Qed.
End SortedKeys.

Lemma StronglySorted_map {A K : Type} (R : K -> K -> Prop) (key : A -> K)
      (l : list A) :
  StronglySorted (fun a b => R (key a) (key b)) l ->
  StronglySorted R (map key l).
Proof.
  induction 1 as [|a l Hl IH Ha]; cbn; constructor.
  - exact IH.
  - apply Forall_map. exact Ha.
Qed.

Lemma date_cmp_eq (a b : date) : date_cmp a b = Eq -> a = b.
Proof.
  unfold date_cmp. destruct a as [y m d], b as [y' m' d']. cbn.
  destruct (Z.compare_spec y y'); try discriminate.
  destruct (Z.compare_spec m m'); try discriminate.
  destruct (Z.compare_spec d d'); try discriminate.
  intros _. congruence.
Qed.

Lemma null_cmp_eq (be : Backend) (x y : option date) :
  null_cmp be date_cmp x y = Eq -> x = y.
Proof.
  unfold null_cmp. destruct x as [a|], y as [b|], (nulls_smallest be);
    try discriminate; try reflexivity;
    intros H; apply date_cmp_eq in H; now subst.
Qed.

Lemma deletion_keeps_due_back (pk : Z) (copies : list BookInstance.t) :
  map BookInstance.due_back (OnDelete.book_deleted pk copies)
  = map BookInstance.due_back copies
  /\ map BookInstance.due_back (OnDelete.user_deleted pk copies)
     = map BookInstance.due_back copies.
Proof.
  unfold OnDelete.book_deleted, OnDelete.user_deleted.
  rewrite !map_map. split; apply map_ext; intros c.
  - now destruct (OnDelete.refers_to_book pk c).
  - now destruct (OnDelete.refers_to_user pk c).
Qed.

(** X8. Deleting a book or a user leaves the default listing of the
    copies as it was for the loans: whatever order the backend gives to
    copies with equal due dates, a listing taken after the deletion shows
    the same due date at every position as one taken before, and
    [is_overdue] answers the same at every position. *)
Theorem deletion_keeps_loans (be : Backend) (today : date) (pk : Z)
        (copies table' before after : list BookInstance.t)
        (Hdeleted : table' = OnDelete.book_deleted pk copies
                    \/ table' = OnDelete.user_deleted pk copies)
        (Hbefore : default_listing_of be copies before)
        (Hafter : default_listing_of be table' after) :
  map BookInstance.due_back after = map BookInstance.due_back before
  /\ map (BookInstance.is_overdue today) after
     = map (BookInstance.is_overdue today) before.
Proof.
  destruct Hbefore as [Pb Sb], Hafter as [Pa Sa].
  assert (Hkeys : map BookInstance.due_back table'
                  = map BookInstance.due_back copies).
  { destruct (deletion_keeps_due_back pk copies) as [Hb Hu].
    destruct Hdeleted as [-> | ->]; assumption. }
  assert (Hsame : map BookInstance.due_back after
                  = map BookInstance.due_back before).
  { apply (sorted_keys_unique (null_cmp be date_cmp)).
    - apply null_cmp_antisym, date_cmp_antisym.
    - apply null_cmp_eq.
    - rewrite <- (Permutation_map BookInstance.due_back Pa), Hkeys.
      now apply Permutation_map.
    - exact (StronglySorted_map (fun x y => null_cmp be date_cmp x y <> Gt)
               BookInstance.due_back after Sa).
    - exact (StronglySorted_map (fun x y => null_cmp be date_cmp x y <> Gt)
               BookInstance.due_back before Sb). }
  split; [exact Hsame|].
  assert (Hread : forall rows,
             map (BookInstance.is_overdue today) rows
             = map (fun due => Ok match due with
                                  | Some d => date_gt today d
                                  | None => false
                                  end)
                   (map BookInstance.due_back rows)).
  { intros rows. rewrite map_map. apply map_ext. intros c.
    apply is_overdue_eval. }
  now rewrite (Hread after), (Hread before), Hsame.
Qed.

Lemma deletion_keeps_loans_witness :
  exists before after,
    default_listing_of binary_backend loans before
    /\ default_listing_of binary_backend (OnDelete.book_deleted 12 loans)
                          after
    /\ map BookInstance.due_back after = map BookInstance.due_back before
    /\ map (BookInstance.is_overdue (mkdate 2021 10 1)) after
       = map (BookInstance.is_overdue (mkdate 2021 10 1)) before.
Proof.
  destruct (copies_listed binary_backend loans)
    as (before & _ & Pb & Sb).
  destruct (copies_listed binary_backend (OnDelete.book_deleted 12 loans))
    as (after & _ & Pa & Sa).
  exists before, after.
  split; [exact (conj Pb Sb)|]. split; [exact (conj Pa Sa)|].
  apply (deletion_keeps_loans binary_backend (mkdate 2021 10 1) 12 loans
           (OnDelete.book_deleted 12 loans) before after).
  - left. reflexivity.
  - exact (conj Pb Sb).
  - exact (conj Pa Sa).
Defined.

Example shelf_after_deletion :
  map BookInstance.__str__ (OnDelete.book_deleted 12 [shelf_copy])
  = [Raise (AttributeError "'NoneType' object has no attribute 'title'")].
Proof. vm_compute. reflexivity. Qed.

(** ** Validated names and the length of the texts *)

Lemma len_append (a b : string) : len (a ++ b) = (len a + len b)%nat.
Proof.
  induction a as [|x a IH]; cbn [append len]; [reflexivity|].
  destruct (is_continuation x); rewrite IH; reflexivity.
Qed.

Lemma clean_required (n : nat) (help v : string) :
  returns (clean (Fields.required n help) v)
  <-> v <> "" /\ (len v <= n)%nat.
Proof.
  unfold clean, validate, run_validators, is_empty.
  cbn [blank choices max_length Fields.required andb negb].
  destruct v as [|x v].
  - cbn. split; [intros [w Hw]; discriminate Hw | intros [H _]; now elim H].
  - cbn [String.eqb bind].
    destruct (Nat.ltb_spec n (len (String x v))); cbn [bind]; split.
    + intros [w Hw]. discriminate Hw.
    + intros [_ Hle]. lia.
    + intros _. split; [discriminate | lia].
    + intros _. now eexists.
Qed.

Lemma nonempty_length (v : string) : v <> "" -> (1 <= String.length v)%nat.
Proof.
  destruct v; [now intros H; elim H | cbn; lia].
Qed.

Example accented_isbn_is_clean :
  clean Fields.Book_isbn "ééééééé" = Ok "ééééééé"
  /\ len "ééééééé" = 7%nat /\ String.length "ééééééé" = 14%nat.
Proof. vm_compute. repeat split. Qed.

(** X9. An author whose names pass the validation of their columns has a
    text: the two names with two characters between them, so at most 202
    characters. Lengths are counted in characters, as [len] does. *)
Theorem author_str_length (a : Author.t)
        (Hlast : returns (clean Fields.Author_last_name (Author.last_name a)))
        (Hfirst : returns (clean Fields.Author_first_name
                             (Author.first_name a))) :
  exists s,
    Author.__str__ a = Ok s
    /\ len s = (len (Author.last_name a) + 2 + len (Author.first_name a))%nat
    /\ (len s <= 202)%nat.
Proof.
  apply clean_required in Hlast as [_ Hll], Hfirst as [_ Hfl].
  eexists. split; [apply format_pair_comma|].
  rewrite len_append. cbn [append].
  change (len (String "," (String " " (Author.first_name a))))
    with (S (S (len (Author.first_name a)))).
  lia.
Qed.

Lemma author_str_length_witness :
  exists s,
    Author.__str__ cortazar_accented = Ok s
    /\ len s = (len (Author.last_name cortazar_accented) + 2
                + len (Author.first_name cortazar_accented))%nat
    /\ (len s <= 202)%nat.
Proof.
  apply (author_str_length cortazar_accented); eexists; reflexivity.
Defined.

(** X10. For a book whose genres have validated names, [display_genre] is
    at most 604 characters however many genres the book has, and it is
    empty only when the book has no genre. *)
Theorem display_genre_bounded (b : Book.t)
        (Hnames : Forall (fun g => returns (clean Fields.Genre_name
                                              (Genre.name g)))
                         (Book.genre b)) :
  (len (Book.display_genre b) <= 604)%nat
  /\ (Book.display_genre b = "" <-> Book.genre b = []).
Proof.
  unfold Book.display_genre, slice_to.
  assert (Hn : Forall (fun g => (1 <= String.length (Genre.name g))%nat
                                /\ (len (Genre.name g) <= 200)%nat)
                      (Book.genre b)).
  { revert Hnames. apply Forall_impl. intros g Hg.
    apply clean_required in Hg as [Hne Hle].
    apply nonempty_length in Hne. now split. }
  clear Hnames.
  assert (Hsep : forall s, len (String "," (String " " s)) = S (S (len s)))
    by reflexivity.
  destruct (Book.genre b) as [|g1 [|g2 [|g3 rest]]]; cbn [firstn map join].
  - split; [cbn; lia | tauto].
  - apply Forall_inv in Hn. cbv beta in Hn.
    split; [lia|]. split; [|discriminate].
    intros E. rewrite E in Hn. cbn in Hn. lia.
  - pose proof (Forall_inv Hn) as H1.
    pose proof (Forall_inv (Forall_inv_tail Hn)) as H2.
    cbv beta in H1, H2.
    split.
    + rewrite len_append. cbn [append]. rewrite Hsep. lia.
    + split; [|discriminate].
      intros E. apply (f_equal String.length) in E.
      rewrite append_length in E. cbn in E. lia.
  - pose proof (Forall_inv Hn) as H1.
    pose proof (Forall_inv (Forall_inv_tail Hn)) as H2.
    pose proof (Forall_inv (Forall_inv_tail (Forall_inv_tail Hn))) as H3.
    cbv beta in H1, H2, H3.
    split.
    + rewrite len_append. cbn [append]. rewrite Hsep.
      rewrite len_append. cbn [append]. rewrite Hsep. lia.
    + split; [|discriminate].
      intros E. apply (f_equal String.length) in E.
      rewrite append_length in E. cbn in E. lia.
Qed.

Lemma display_genre_bounded_witness :
  (len (Book.display_genre ficciones) <= 604)%nat
  /\ (Book.display_genre ficciones = "" <-> Book.genre ficciones = []).
Proof.
  apply (display_genre_bounded ficciones).
  repeat constructor; eexists; reflexivity.
Defined.

(** X11. Validation of the required text columns accepts exactly the
    non-empty values within the declared length, counted in characters:
    200 for the names of genres and languages, for titles and imprints,
    100 for the names of an author, 13 for the ISBN, of which nothing but
    the length is checked. *)
Theorem required_columns_accept (v : string) :
  (returns (clean Fields.Genre_name v) <-> v <> "" /\ (len v <= 200)%nat)
  /\ (returns (clean Fields.Language_name v)
      <-> v <> "" /\ (len v <= 200)%nat)
  /\ (returns (clean Fields.Book_title v) <-> v <> "" /\ (len v <= 200)%nat)
  /\ (returns (clean Fields.Book_isbn v) <-> v <> "" /\ (len v <= 13)%nat)
  /\ (returns (clean Fields.BookInstance_imprint v)
      <-> v <> "" /\ (len v <= 200)%nat)
  /\ (returns (clean Fields.Author_first_name v)
      <-> v <> "" /\ (len v <= 100)%nat)
  /\ (returns (clean Fields.Author_last_name v)
      <-> v <> "" /\ (len v <= 100)%nat).
Proof.
  repeat apply conj; apply clean_required.
Qed.
